(** * Bronze layer ingestion and validation (scripts/04.bronze_layer.py)

    A shallow embedding of class [Bronze]: the three source pipelines
    ([consume_user_registrations], [consume_gym_logins],
    [consume_kafka_multiplex]), the orchestrator [consume] and the validator
    ([assert_count], [validate]).

    Python code that prints, reads the clock, touches the Spark session or
    raises is written in the monad [Py]: a function of the process state
    ([World]) returning an [Outcome] and the new state.  The Spark engine is
    an external collaborator: what a SQL filter string selects, how long a
    started stream runs, which namespaces exist, which strings are time
    intervals and what the wall clock shows are fields of the record [Env],
    a variable of the development.  What the script itself decides (names,
    paths, options, columns, trigger, the order of calls, the expected
    counts) is defined here from the source, and so is where its calls of
    the library raise. *)

From Stdlib Require Import ZArith List String Ascii Lia.
From stdpp Require Import base option list strings gmap pretty.

Open Scope string_scope.
Open Scope Z_scope.
Open Scope list_scope.

(** ** Python values passed as arguments *)

Inductive PyVal :=
| PyNone
| PyBool (b : bool)
| PyInt (n : Z)
| PyFloat (bits : Z)
| PyStr (s : string).

(** A float is kept as the 64 bits of its binary64 form. *)
Definition float_one : Z := 4607182418800017408.
Definition float_minus_zero : Z := 9223372036854775808.

(** [v == True]: [True] equals the integer 1 and the float 1.0, and no
    other value of these types. *)
Definition py_eq_True (v : PyVal) : bool :=
  match v with
  | PyBool b => b
  | PyInt n => Z.eqb n 1
  | PyFloat bits => Z.eqb bits float_one
  | _ => false
  end.

(** Truth value of [v] in [if v:]. *)
Definition py_truthy (v : PyVal) : bool :=
  match v with
  | PyNone => false
  | PyBool b => b
  | PyInt n => negb (Z.eqb n 0)
  | PyFloat bits => negb (Z.eqb bits 0 || Z.eqb bits float_minus_zero)
  | PyStr s => negb (String.eqb s "")
  end.

(** ** Rows *)

Inductive Value :=
| VNull
| VLong (n : Z)
| VDouble (bits : Z)
| VStr (s : string)
| VTimestamp (micros : Z)
| VDate (days : Z).

Definition Value_eqb (a b : Value) : bool :=
  match a, b with
  | VNull, VNull => true
  | VLong x, VLong y => Z.eqb x y
  | VDouble x, VDouble y => Z.eqb x y
  | VStr x, VStr y => String.eqb x y
  | VTimestamp x, VTimestamp y => Z.eqb x y
  | VDate x, VDate y => Z.eqb x y
  | _, _ => false
  end.

(** A row is the ordered list of its columns. *)
Definition Row := list (string * Value).

Fixpoint get_col (name : string) (r : Row) : option Value :=
  match r with
  | [] => None
  | (c, v) :: r' => if String.eqb c name then Some v else get_col name r'
  end.

(** [withColumn]: replaces the column of that name, or appends a new one. *)
Fixpoint set_col (name : string) (v : Value) (r : Row) : Row :=
  match r with
  | [] => [(name, v)]
  | (c, w) :: r' =>
      if String.eqb c name then (c, v) :: r' else (c, w) :: set_col name v r'
  end.

(** [select]: the named columns in the order asked, null where absent. *)
Definition select_cols (names : list string) (r : Row) : Row :=
  map (fun c => (c, default VNull (get_col c r))) names.

(** A row of a stream remembers the input unit (file) it was read from. *)
Record Tagged := { origin : string; fields : Row }.

(** Method chaining: [x |> f |> g] is [g (f x)]. *)
Notation "x |> f" := (f x) (at level 62, left associativity, only parsing).

(** ** Query plans

    The chained reader / frame / writer calls build a plan; nothing runs
    until [toTable] hands it to the engine. *)

(** What a micro-batch sees when it runs: the batch timestamp, the static
    tables it joins against, and the engine's arithmetic on column values
    (division, casts and [to_date], with its floating point, its limits
    and its session time zone). *)
Record ExecCtx := {
  now : Z;
  static_rows : string -> list Row;
  eval_divide : Value -> Z -> Value;
  eval_cast : string -> Value -> Value;
  eval_to_date : Value -> Value
}.

Record DataStreamReader := {
  r_format : option string;
  r_schema : option string;
  r_options : list (string * PyVal)
}.

Definition readStream : DataStreamReader :=
  {| r_format := None; r_schema := None; r_options := [] |}.

Definition rd_format (f : string) (r : DataStreamReader) : DataStreamReader :=
  {| r_format := Some f; r_schema := r_schema r; r_options := r_options r |}.

Definition rd_schema (s : string) (r : DataStreamReader) : DataStreamReader :=
  {| r_format := r_format r; r_schema := Some s; r_options := r_options r |}.

(** A streaming frame: where it reads from and what it does to the rows of
    a micro-batch. *)
Record DataFrame := {
  df_reader : DataStreamReader;
  df_path : string;
  df_transform : ExecCtx -> list Tagged -> list Tagged
}.

Definition rd_load (path : string) (r : DataStreamReader) : DataFrame :=
  {| df_reader := r; df_path := path; df_transform := fun _ rows => rows |}.

(** Column expressions. *)
Definition ColumnExpr := ExecCtx -> Tagged -> Value.

(** The functions of [pyspark.sql.functions] the script calls. *)
Module F.
Definition current_timestamp : ColumnExpr := fun ctx _ => VTimestamp (now ctx).
Definition input_file_name : ColumnExpr := fun _ t => VStr (origin t).
Definition col (name : string) : ColumnExpr :=
  fun _ t => default VNull (get_col name (fields t)).
Definition to_date (c : ColumnExpr) : ColumnExpr :=
  fun ctx t => eval_to_date ctx (c ctx t).
End F.

(** The methods of a column the script calls: [c / n] and [c.cast(type)]. *)
Module Column.
Definition divide (c : ColumnExpr) (n : Z) : ColumnExpr :=
  fun ctx t => eval_divide ctx (c ctx t) n.
Definition cast (type : string) (c : ColumnExpr) : ColumnExpr :=
  fun ctx t => eval_cast ctx type (c ctx t).
End Column.

(** SQL equality: null on either side is not a match. *)
Definition sql_eq (a b : Value) : bool :=
  match a, b with
  | VNull, _ => false
  | _, VNull => false
  | _, _ => Value_eqb a b
  end.

Definition withColumn (name : string) (e : ColumnExpr) (df : DataFrame)
  : DataFrame :=
  {| df_reader := df_reader df; df_path := df_path df;
     df_transform := fun ctx rows =>
       map (fun t => {| origin := origin t;
                        fields := set_col name (e ctx t) (fields t) |})
           (df_transform df ctx rows) |}.

(** A static table read with [spark.read.table(..).select(..)]. *)
Record StaticFrame := { sf_table : string; sf_select : list string }.

Definition static_snapshot (ctx : ExecCtx) (s : StaticFrame) : list Row :=
  map (select_cols (sf_select s)) (static_rows ctx (sf_table s)).

Definition null_row (names : list string) : Row :=
  map (fun c => (c, VNull)) names.

(** One left row against the right side of a left outer join. *)
Definition left_join_row (ctx : ExecCtx) (key : ColumnExpr) (on : string)
    (right : list Row) (names : list string) (t : Tagged) : list Tagged :=
  match List.filter (fun d => sql_eq (key ctx t) (default VNull (get_col on d))) right with
  | [] => [ {| origin := origin t; fields := fields t ++ null_row names |} ]
  | ms => map (fun d => {| origin := origin t; fields := fields t ++ d |}) ms
  end.

(** [df.join(broadcast(s), [key == col(on)], "left")]. *)
Definition join_left (s : StaticFrame) (key : ColumnExpr) (on : string)
    (df : DataFrame) : DataFrame :=
  {| df_reader := df_reader df; df_path := df_path df;
     df_transform := fun ctx rows =>
       flat_map (left_join_row ctx key on (static_snapshot ctx s) (sf_select s))
                (df_transform df ctx rows) |}.

Inductive Trigger :=
| AvailableNow (b : bool)
| ProcessingTime (interval : string).

Record DataStreamWriter := {
  w_df : DataFrame;
  w_format : option string;
  w_options : list (string * string);
  w_outputMode : option string;
  w_queryName : option string;
  w_trigger : option Trigger
}.

Definition writeStream (df : DataFrame) : DataStreamWriter :=
  {| w_df := df; w_format := None; w_options := []; w_outputMode := None;
     w_queryName := None; w_trigger := None |}.

Definition wr_format (f : string) (w : DataStreamWriter) : DataStreamWriter :=
  {| w_df := w_df w; w_format := Some f; w_options := w_options w;
     w_outputMode := w_outputMode w; w_queryName := w_queryName w;
     w_trigger := w_trigger w |}.

Definition wr_option (k v : string) (w : DataStreamWriter) : DataStreamWriter :=
  {| w_df := w_df w; w_format := w_format w;
     w_options := w_options w ++ [(k, v)];
     w_outputMode := w_outputMode w; w_queryName := w_queryName w;
     w_trigger := w_trigger w |}.

Definition wr_outputMode (m : string) (w : DataStreamWriter) : DataStreamWriter :=
  {| w_df := w_df w; w_format := w_format w; w_options := w_options w;
     w_outputMode := Some m; w_queryName := w_queryName w;
     w_trigger := w_trigger w |}.

Definition wr_queryName (n : string) (w : DataStreamWriter) : DataStreamWriter :=
  {| w_df := w_df w; w_format := w_format w; w_options := w_options w;
     w_outputMode := w_outputMode w; w_queryName := Some n;
     w_trigger := w_trigger w |}.

Definition wr_trigger (t : Trigger) (w : DataStreamWriter) : DataStreamWriter :=
  {| w_df := w_df w; w_format := w_format w; w_options := w_options w;
     w_outputMode := w_outputMode w; w_queryName := w_queryName w;
     w_trigger := Some t |}.

(** A started query: the plan, its destination and the scheduler pool that
    was current when it was started. *)
Record StreamingQuery := {
  q_writer : DataStreamWriter;
  q_table : string;
  q_pool : option string
}.

(** ** Process state and effects *)

Inductive PyExn :=
| AttributeError (msg : string)
| TypeError (msg : string)
| AssertionError (msg : string)
| AnalysisException (msg : string)
| ImportError (name module : string)
| ValueError (msg : string)
| IllegalArgumentException (msg : string).

(** How a call ends: it returns, raises, or never comes back. *)
Inductive Outcome (A : Type) :=
| Returned (a : A)
| Raised (e : PyExn)
| Hangs.
Arguments Returned {A} a.
Arguments Raised {A} e.
Arguments Hangs {A}.

(** The external collaborators. *)
Record Env := {
  (* [where(filter)]: does the row satisfy the SQL filter string *)
  sql_where : string -> Row -> bool;
  (* the n-th reading of [int(time.time())] *)
  wall_clock : nat -> Z;
  (* the tables once a started query has terminated; [None] when the
     query never terminates by itself *)
  await_termination :
    StreamingQuery -> gmap string (list Row) -> option (gmap string (list Row));
  (* is there a catalog and database of that name *)
  namespace_exists : string -> bool;
  (* does the engine read the string as a time interval *)
  valid_interval : string -> bool
}.

Record World := {
  tables : gmap string (list Row);
  stdout : list string;
  clock_reads : nat;
  current_namespace : option string;
  scheduler_pool : option string;
  active : list StreamingQuery;
  (* every count asked of the engine so far: table and filter *)
  count_log : list (string * string)
}.

Definition Py (A : Type) : Type := World -> Outcome A * World.

Definition ret {A} (a : A) : Py A := fun w => (Returned a, w).

Definition bind {A B} (m : Py A) (k : A -> Py B) : Py B :=
  fun w =>
    match m w with
    | (Returned a, w') => k a w'
    | (Raised e, w') => (Raised e, w')
    | (Hangs, w') => (Hangs, w')
    end.

Definition raise {A} (e : PyExn) : Py A := fun w => (Raised e, w).

Notation "'let*' x := m 'in' k" := (bind m (fun x => k))
  (at level 10, x name, m at level 100, k at level 200).
Notation "m ;; k" := (bind m (fun _ => k))
  (at level 100, k at level 200, right associativity).

Definition nl : string := String (ascii_of_nat 10) "".

(** [print(s, end=e)] *)
Definition print_end (s e : string) : Py unit :=
  fun w =>
    (Returned tt,
     {| tables := tables w; stdout := stdout w ++ [s +:+ e];
        clock_reads := clock_reads w; current_namespace := current_namespace w;
        scheduler_pool := scheduler_pool w; active := active w;
        count_log := count_log w |}).

Definition print (s : string) : Py unit := print_end s nl.

(** [str(n)] and the format [{n:,}] of an integer. *)
Definition py_str (n : Z) : string := pretty n.

(** Commas every three digits; the digits come least significant first. *)
Fixpoint commas (ds : list ascii) : list ascii :=
  match ds with
  | a :: b :: c :: ((_ :: _) as rest) => a :: b :: c :: ","%char :: commas rest
  | _ => ds
  end.

Definition fmt_comma (n : Z) : string :=
  let digits := String.list_ascii_of_string (pretty (Z.abs n)) in
  let grouped := String.string_of_list_ascii (rev (commas (rev digits))) in
  if Z.ltb n 0 then "-" +:+ grouped else grouped.

Section WithEnv.

Variable env : Env.

(** [int(time.time())] *)
Definition time_int : Py Z :=
  fun w =>
    (Returned (wall_clock env (clock_reads w)),
     {| tables := tables w; stdout := stdout w;
        clock_reads := S (clock_reads w);
        current_namespace := current_namespace w;
        scheduler_pool := scheduler_pool w; active := active w;
        count_log := count_log w |}).

(** [spark.sql("use ...")]: raises, and changes nothing, when there is no
    such catalog and database. *)
Definition spark_use (namespace : string) : Py unit :=
  fun w =>
    if namespace_exists env namespace then
      (Returned tt,
       {| tables := tables w; stdout := stdout w; clock_reads := clock_reads w;
          current_namespace := Some namespace;
          scheduler_pool := scheduler_pool w; active := active w;
          count_log := count_log w |})
    else
      (Raised (AnalysisException ("Namespace not found: " +:+ namespace)), w).

(** [spark.sparkContext.setLocalProperty("spark.scheduler.pool", p)] *)
Definition set_scheduler_pool (p : string) : Py unit :=
  fun w =>
    (Returned tt,
     {| tables := tables w; stdout := stdout w; clock_reads := clock_reads w;
        current_namespace := current_namespace w;
        scheduler_pool := Some p; active := active w;
        count_log := count_log w |}).

(** [writer.toTable(name)]: the query is started and joins the active ones. *)
Definition toTable (name : string) (wr : DataStreamWriter) : Py StreamingQuery :=
  fun w =>
    let q := {| q_writer := wr; q_table := name; q_pool := scheduler_pool w |} in
    (Returned q,
     {| tables := tables w; stdout := stdout w; clock_reads := clock_reads w;
        current_namespace := current_namespace w;
        scheduler_pool := scheduler_pool w; active := active w ++ [q];
        count_log := count_log w |}).

(** [spark.streams.active] *)
Definition streams_active : Py (list StreamingQuery) :=
  fun w => (Returned (active w), w).

(** [stream.awaitTermination()] *)
Definition awaitTermination (q : StreamingQuery) : Py unit :=
  fun w =>
    match await_termination env q (tables w) with
    | Some t' =>
        (Returned tt,
         {| tables := t'; stdout := stdout w; clock_reads := clock_reads w;
            current_namespace := current_namespace w;
            scheduler_pool := scheduler_pool w; active := active w;
            count_log := count_log w |})
    | None => (Hangs, w)
    end.

(** The committed rows of a table that satisfy a filter. *)
Definition committed (w : World) (table filter : string) : option (list Row) :=
  List.filter (sql_where env filter) <$> tables w !! table.

Definition committed_count (w : World) (table filter : string) : option Z :=
  (fun rows => Z.of_nat (length rows)) <$> committed w table filter.

(** [spark.read.table(table).where(filter).count()] *)
Definition count_where (table filter : string) : Py Z :=
  fun w =>
    let w' :=
      {| tables := tables w; stdout := stdout w; clock_reads := clock_reads w;
         current_namespace := current_namespace w;
         scheduler_pool := scheduler_pool w; active := active w;
         count_log := count_log w ++ [(table, filter)] |} in
    match committed_count w table filter with
    | Some n => (Returned n, w')
    | None =>
        (Raised (AnalysisException ("Table or view not found: " +:+ table)), w')
    end.

(** [spark.read.table(table)] used only to build a plan. *)
Definition read_table (table : string) : Py unit :=
  fun w =>
    match tables w !! table with
    | Some _ => (Returned tt, w)
    | None =>
        (Raised (AnalysisException ("Table or view not found: " +:+ table)), w)
    end.

(** [assert cond, msg] *)
Definition py_assert (cond : bool) (msg : string) : Py unit :=
  if cond then ret tt else raise (AssertionError msg).

(** ** Class Bronze *)

(** The configuration object of [01.config]: the fields the class reads. *)
Record Config := {
  base_dir_data : string;
  base_dir_checkpoint : string;
  conf_db_name : string
}.

Record Bronze := {
  Conf : Config;
  catalog : string;
  landing_zone : string;
  checkpoint_base : string;
  db_name : string
}.

Definition Bronze_init (conf : Config) (env_name : string) : Py Bronze :=
  let self :=
    {| Conf := conf;
       catalog := env_name;
       landing_zone := base_dir_data conf +:+ "/raw";
       checkpoint_base := base_dir_checkpoint conf +:+ "/checkpoint";
       db_name := conf_db_name conf |} in
  spark_use (catalog self +:+ "." +:+ db_name self) ;;
  ret self.

(** [f"{self.catalog}.{self.db_name}.{name}"] *)
Definition qualified (self : Bronze) (name : string) : string :=
  catalog self +:+ "." +:+ db_name self +:+ "." +:+ name.

(** *** Validator *)

Definition assert_message (expected_count actual_count : Z)
    (table_name filter : string) : string :=
  "Expected " +:+ fmt_comma expected_count +:+ " records, found "
  +:+ fmt_comma actual_count +:+ " in " +:+ table_name +:+ " where " +:+ filter.

Definition assert_count (self : Bronze) (table_name : string)
    (expected_count : Z) (filter : string) : Py unit :=
  print_end ("Validating record counts in " +:+ table_name +:+ "...") "" ;;
  let* actual_count := count_where (qualified self table_name) filter in
  py_assert (Z.eqb actual_count expected_count)
            (assert_message expected_count actual_count table_name filter) ;;
  print ("Found " +:+ fmt_comma actual_count +:+ " / Expected "
         +:+ fmt_comma expected_count +:+ " records where " +:+ filter
         +:+ ": Success").

(** The default of the parameter [filter]. *)
Definition default_filter : string := "true".

Definition validate (self : Bronze) (sets : Z) : Py unit :=
  let* start := time_int in
  print (nl +:+ "Validating bronz layer records...") ;;
  assert_count self "registered_users_bz" (if Z.eqb sets 1 then 5 else 10)
               default_filter ;;
  assert_count self "gym_logins_bz" (if Z.eqb sets 1 then 8 else 16)
               default_filter ;;
  assert_count self "kafka_multiplex_bz" (if Z.eqb sets 1 then 7 else 13)
               "topic='user_info'" ;;
  assert_count self "kafka_multiplex_bz" (if Z.eqb sets 1 then 16 else 32)
               "topic='workout'" ;;
  assert_count self "kafka_multiplex_bz" (sets * 253801) "topic='bpm'" ;;
  let* finish := time_int in
  print ("Bronze layer validation completed in " +:+ py_str (finish - start)
         +:+ " seconds").

(** *** Source pipelines *)

(** [from pyspark.sql.functions import F]: the module defines no name
    [F], so the statement raises. *)
Definition import_F : Py unit :=
  raise (ImportError "F" "pyspark.sql.functions").

(** [reader.option(key, value)]: a method of two parameters; a call with
    any other number of arguments raises. *)
Definition rd_option (args : list PyVal) (r : DataStreamReader)
  : Py DataStreamReader :=
  match args with
  | [PyStr k; v] =>
      ret {| r_format := r_format r; r_schema := r_schema r;
             r_options := r_options r ++ [(k, v)] |}
  | _ => raise (TypeError "option")
  end.

(** White space as [str.strip] sees it, for the characters below 128. *)
Definition is_space (c : ascii) : bool :=
  let n := nat_of_ascii c in
  (Nat.leb 9 n && Nat.leb n 13) || (Nat.leb 28 n && Nat.leb n 32).

Fixpoint is_blank (s : string) : bool :=
  match s with
  | EmptyString => true
  | String c s' => is_space c && is_blank s'
  end.

(** [writer.trigger(processingTime=v)]: the value must be a string that is
    not blank, and the engine must read it as an interval. *)
Definition trigger_processingTime (v : PyVal) (w : DataStreamWriter)
  : Py DataStreamWriter :=
  match v with
  | PyStr s =>
      if is_blank s then
        raise (ValueError "Value for processingTime must be a non empty string.")
      else if valid_interval env s then ret (wr_trigger (ProcessingTime s) w)
      else raise (IllegalArgumentException s)
  | _ => raise (ValueError "Value for processingTime must be a non empty string.")
  end.

(** [writer.trigger(availableNow=True)] *)
Definition trigger_availableNow (w : DataStreamWriter) : DataStreamWriter :=
  wr_trigger (AvailableNow true) w.

Definition consume_user_registrations (self : Bronze)
    (once processing_time : PyVal) : Py StreamingQuery :=
  import_F ;;
  let schema :=
    "user_id long, device_id long, mac_address string, registration_timestamp double" in
  let* reader :=
    readStream |> rd_format "cloudFiles" |> rd_option [PyStr schema] in
  let* reader := reader |> rd_option [PyStr "maxFileTrigger"; PyInt 1] in
  let* reader := reader |> rd_option [PyStr "cloudFiles.format"; PyStr "csv"] in
  let* reader := reader |> rd_option [PyStr "header"; PyStr "True"] in
  let df_stream :=
    reader
      |> rd_load (landing_zone self +:+ "/registered_users_bz")
      |> withColumn "load_time" F.current_timestamp
      |> withColumn "source_file" F.input_file_name in
  let stream_writer :=
    writeStream df_stream
      |> wr_format "delta"
      |> wr_option "checkpointLocation"
                   (checkpoint_base self +:+ "/registered_users_bz")
      |> wr_outputMode "append"
      |> wr_queryName "registered_users_bz_ingestion_stream" in
  set_scheduler_pool "bronze_p2" ;;
  if py_eq_True once then
    stream_writer |> trigger_availableNow
                  |> toTable (qualified self "registered_users_bz")
  else
    let* polling := stream_writer |> trigger_processingTime processing_time in
    polling |> toTable (qualified self "registered_users_bz").

Definition consume_gym_logins (self : Bronze)
    (once processing_time : PyVal) : Py StreamingQuery :=
  import_F ;;
  let schema := "mac_address string, gym bigint, login double, logout double" in
  let* reader :=
    readStream
      |> rd_format "cloudFiles"
      |> rd_schema schema
      |> rd_option [PyStr "maxFileTrigger"; PyInt 1] in
  let* reader := reader |> rd_option [PyStr "cloudFiles.format"; PyStr "csv"] in
  let* reader := reader |> rd_option [PyStr "header"; PyStr "True"] in
  let df_stream :=
    reader
      |> rd_load (landing_zone self +:+ "/gym_logins_bz")
      |> withColumn "load_time" F.current_timestamp
      |> withColumn "source_file" F.input_file_name in
  let stream_writer :=
    writeStream df_stream
      |> wr_format "delta"
      |> wr_option "checkpointLocation"
                   (checkpoint_base self +:+ "/gym_logins_bz")
      |> wr_outputMode "append"
      |> wr_queryName "gym_logins_bz_ingestion_stream" in
  set_scheduler_pool "bronze_p2" ;;
  if py_eq_True once then
    stream_writer |> trigger_availableNow
                  |> toTable (qualified self "gym_logins_bz")
  else
    let* polling := stream_writer |> trigger_processingTime processing_time in
    polling |> toTable (qualified self "gym_logins_bz").

(** The join key of the multiplexed source:
    [to_date((col("timestamp")/1000).cast("timestamp"))]. *)
Definition kafka_join_key : ColumnExpr :=
  F.to_date (Column.cast "timestamp" (Column.divide (F.col "timestamp") 1000)).

Definition consume_kafka_multiplex (self : Bronze)
    (topic once processing_time : PyVal) : Py StreamingQuery :=
  import_F ;;
  let schema :=
    "key string, value string, topic string, partition bigint, offset bigint, timestamp bigint" in
  read_table (qualified self "date_lookup") ;;
  let df_date_lookup :=
    {| sf_table := qualified self "date_lookup";
       sf_select := ["date"; "week_part"] |} in
  let* reader :=
    readStream
      |> rd_format "cloudFiles"
      |> rd_schema schema
      |> rd_option [PyStr "cloudFiles.format"; PyStr "json"] in
  let* reader := reader |> rd_option [PyStr "maxFileTrigger"; PyInt 1] in
  let df_stream :=
    reader
      |> rd_load (landing_zone self +:+ "/kafka_multiplex_bz")
      |> withColumn "load_time" F.current_timestamp
      |> withColumn "source_file" F.input_file_name
      |> join_left df_date_lookup kafka_join_key "date" in
  let stream_writer :=
    writeStream df_stream
      |> wr_format "delta"
      |> wr_option "checkpointLocation"
                   (checkpoint_base self +:+ "/kafka_multiplex_bz")
      |> wr_outputMode "append"
      |> wr_queryName "kafka_multiplex_bz_ingestion_stream" in
  set_scheduler_pool "bronze_p1" ;;
  if py_eq_True once then
    stream_writer |> trigger_availableNow
                  |> toTable (qualified self "kafka_multiplex_bz")
  else
    let* polling := stream_writer |> trigger_processingTime processing_time in
    polling |> toTable (qualified self "kafka_multiplex_bz").

(** The three sources, and the pipeline method of each. *)
Inductive Source := UserRegistrations | GymLogins | KafkaMultiplex.

Definition consume_source (self : Bronze) (src : Source)
    (topic once processing_time : PyVal) : Py StreamingQuery :=
  match src with
  | UserRegistrations => consume_user_registrations self once processing_time
  | GymLogins => consume_gym_logins self once processing_time
  | KafkaMultiplex => consume_kafka_multiplex self topic once processing_time
  end.

(** *** Orchestrator *)

(** The default of the parameter [processing_time]. *)
Definition default_processing_time : PyVal := PyStr "5 seconds".

(** Positional arguments bound to the parameters of a method, left to
    right; a parameter without an argument takes its default. *)
Fixpoint bind_args (params : list (option PyVal)) (args : list PyVal)
  : option (list PyVal) :=
  match params, args with
  | [], [] => Some []
  | [], _ :: _ => None
  | d :: ps, [] => v ← d; (v ::.) <$> bind_args ps []
  | _ :: ps, a :: args' => (a ::.) <$> bind_args ps args'
  end.

(** The methods of the class that start a pipeline: the name, the defaults
    of the parameters after [self], and the body. *)
Definition pipeline_methods
  : list (string * (list (option PyVal) * (Bronze -> list PyVal -> Py unit))) :=
  [ ("consume_user_registrations",
     ([Some (PyBool true); Some default_processing_time],
      fun self vs =>
        match vs with
        | [once; processing_time] =>
            consume_user_registrations self once processing_time ;; ret tt
        | _ => raise (TypeError "consume_user_registrations")
        end));
    ("consume_gym_logins",
     ([Some (PyBool true); Some default_processing_time],
      fun self vs =>
        match vs with
        | [once; processing_time] =>
            consume_gym_logins self once processing_time ;; ret tt
        | _ => raise (TypeError "consume_gym_logins")
        end));
    ("consume_kafka_multiplex",
     ([None; Some (PyBool true); Some default_processing_time],
      fun self vs =>
        match vs with
        | [topic; once; processing_time] =>
            consume_kafka_multiplex self topic once processing_time ;; ret tt
        | _ => raise (TypeError "consume_kafka_multiplex")
        end)) ].

(** Every name an instance of [Bronze] answers to: the fields set by
    [__init__] and the methods of the class. *)
Definition Bronze_attributes : list string :=
  [ "Conf"; "catalog"; "landing_zone"; "checkpoint_base"; "db_name";
    "__init__"; "consume_user_registrations"; "consume_gym_logins";
    "consume_kafka_multiplex"; "consume"; "assert_count"; "validate" ].

Fixpoint assoc {A} (name : string) (l : list (string * A)) : option A :=
  match l with
  | [] => None
  | (k, a) :: l' => if String.eqb k name then Some a else assoc name l'
  end.

(** [self.<name>(args)]: the name is looked up on the instance; of the
    names found, the pipeline methods are the ones called here. *)
Definition call_method (self : Bronze) (name : string) (args : list PyVal)
  : Py unit :=
  if negb (existsb (String.eqb name) Bronze_attributes) then
    raise (AttributeError
             ("'Bronze' object has no attribute '" +:+ name +:+ "'"))
  else
    match assoc name pipeline_methods with
    | None => raise (TypeError name)
    | Some (params, body) =>
        match bind_args params args with
        | Some vs => body self vs
        | None => raise (TypeError name)
        end
    end.

(** [for stream in streams: stream.awaitTermination()] *)
Fixpoint await_all (streams : list StreamingQuery) : Py unit :=
  match streams with
  | [] => ret tt
  | q :: rest => awaitTermination q ;; await_all rest
  end.

Definition consume (self : Bronze) (once processing_time : PyVal) : Py unit :=
  let* start := time_int in
  print (nl +:+ "Starting bronze layer consumption ...") ;;
  call_method self "consume_user_registration" [once; processing_time] ;;
  call_method self "consume_gym_logins" [once; processing_time] ;;
  call_method self "consume_kafka_multiplex" [once; processing_time] ;;
  (if py_truthy once then
     let* streams := streams_active in await_all streams
   else ret tt) ;;
  let* finish := time_int in
  print ("Completed bronze layer consumtion " +:+ py_str (finish - start)
         +:+ " seconds").

End WithEnv.

(** ** The validator, expectation by expectation *)

(** A validation expectation: table, expected count, filter. *)
Abbreviation Expectation := (string * Z * string)%type.

(** The five calls of [validate], in the order written. *)
Definition battery (sets : Z) : list Expectation :=
  [ ("registered_users_bz", if Z.eqb sets 1 then 5 else 10, default_filter);
    ("gym_logins_bz", if Z.eqb sets 1 then 8 else 16, default_filter);
    ("kafka_multiplex_bz", if Z.eqb sets 1 then 7 else 13, "topic='user_info'");
    ("kafka_multiplex_bz", if Z.eqb sets 1 then 16 else 32, "topic='workout'");
    ("kafka_multiplex_bz", sets * 253801, "topic='bpm'") ].

(** The count the engine is asked for by an expectation. *)
Definition query_of (self : Bronze) (x : Expectation) : string * string :=
  (qualified self (fst (fst x)), snd x).

Section Validator.

Variable env : Env.
Variable self : Bronze.

Fixpoint check_all (es : list Expectation) : Py unit :=
  match es with
  | [] => ret tt
  | (t, e, f) :: es' => assert_count env self t e f ;; check_all es'
  end.

(** How one expectation ends against the committed rows of [w]. *)
Definition check_outcome (w : World) (x : Expectation) : Outcome unit :=
  let '(t, e, f) := x in
  match committed_count env w (qualified self t) f with
  | None =>
      Raised (AnalysisException
                ("Table or view not found: " +:+ qualified self t))
  | Some a =>
      if Z.eqb a e then Returned tt
      else Raised (AssertionError (assert_message e a t f))
  end.

(** The first expectation that does not end well decides; the second
    component lists the expectations that were evaluated. *)
Fixpoint run_battery (w : World) (es : list Expectation)
  : Outcome unit * list Expectation :=
  match es with
  | [] => (Returned tt, [])
  | x :: es' =>
      match check_outcome w x with
      | Returned _ =>
          let '(o, seen) := run_battery w es' in (o, x :: seen)
      | o => (o, [x])
      end
  end.

(** The expectation holds of the committed rows. *)
Definition holds (w : World) (x : Expectation) : Prop :=
  committed_count env w (qualified self (fst (fst x))) (snd x)
  = Some (snd (fst x)).

End Validator.

(** The state in which [validate] makes its first count. *)
Definition validate_entry (env : Env) (w : World) : World :=
  snd (print (nl +:+ "Validating bronz layer records...") (snd (time_int env w))).

(** The battery as the specification words it: the counts of one data
    set, each multiplied by the number of sets. *)
Definition scaled_battery (sets : Z) : list Expectation :=
  map (fun x : Expectation => (fst (fst x), sets * snd (fst x), snd x))
      (battery 1).

(** ** A concrete engine and data sets, to run the definitions on *)

(** The row carries the given topic. *)
Definition has_topic (topic : string) (r : Row) : bool :=
  match get_col "topic" r with
  | Some (VStr s) => String.eqb s topic
  | _ => false
  end.

(** The filters the validator uses, read as SQL does. *)
Definition demo_where (filter : string) (r : Row) : bool :=
  if String.eqb filter "true" then true
  else if String.eqb filter "topic='user_info'" then has_topic "user_info" r
  else if String.eqb filter "topic='workout'" then has_topic "workout" r
  else if String.eqb filter "topic='bpm'" then has_topic "bpm" r
  else false.

Definition demo_env : Env :=
  {| sql_where := demo_where;
     wall_clock := fun n => 1700000000 + Z.of_nat n;
     await_termination := fun q t =>
       match w_trigger (q_writer q) with
       | Some (AvailableNow _) => Some t
       | _ => None
       end;
     namespace_exists := fun namespace => String.eqb namespace "dev.sbit_db";
     valid_interval := fun interval => String.eqb interval "5 seconds" |}.

Definition demo_conf : Config :=
  {| base_dir_data := "/mnt/sbit/data";
     base_dir_checkpoint := "/mnt/sbit/chk";
     conf_db_name := "sbit_db" |}.

Definition demo_self : Bronze :=
  {| Conf := demo_conf; catalog := "dev";
     landing_zone := "/mnt/sbit/data/raw";
     checkpoint_base := "/mnt/sbit/chk/checkpoint";
     db_name := "sbit_db" |}.

Definition user_row : Row :=
  [ ("user_id", VLong 12474); ("device_id", VLong 102303);
    ("mac_address", VStr "9c:f3:87:aa:01:02");
    ("registration_timestamp", VDouble 0);
    ("load_time", VTimestamp 1700000000000000);
    ("source_file", VStr "/mnt/sbit/data/raw/registered_users_bz/1-registered_users.csv") ].

Definition gym_row : Row :=
  [ ("mac_address", VStr "9c:f3:87:aa:01:02"); ("gym", VLong 5);
    ("login", VDouble 0); ("logout", VDouble 0);
    ("load_time", VTimestamp 1700000000000000);
    ("source_file", VStr "/mnt/sbit/data/raw/gym_logins_bz/1-gym_logins.csv") ].

Definition event_row (topic : string) : Row :=
  [ ("key", VStr "12474"); ("value", VStr "{}"); ("topic", VStr topic);
    ("partition", VLong 0); ("offset", VLong 1);
    ("timestamp", VLong 1683504000000);
    ("load_time", VTimestamp 1700000000000000);
    ("source_file", VStr "/mnt/sbit/data/raw/kafka_multiplex_bz/1-kafka.json");
    ("date", VDate 19485); ("week_part", VStr "2023-18-WD") ].

(** [n] data sets' worth of events, scaled as the specification has it. *)
Definition demo_events (users workouts bpms : Z) : list Row :=
  replicate (Z.to_nat users) (event_row "user_info")
  ++ replicate (Z.to_nat workouts) (event_row "workout")
  ++ replicate (Z.to_nat bpms) (event_row "bpm").

Definition demo_world (users gyms : list Row) (events : list Row) : World :=
  {| tables :=
       <[ "dev.sbit_db.registered_users_bz" := users ]>
       (<[ "dev.sbit_db.gym_logins_bz" := gyms ]>
       (<[ "dev.sbit_db.kafka_multiplex_bz" := events ]> ∅));
     stdout := []; clock_reads := 0; current_namespace := Some "dev.sbit_db";
     scheduler_pool := None; active := []; count_log := [] |}.

(** One data set, as the end-to-end scenario describes it. *)
Definition one_set_events : list Row := demo_events 7 16 253801.
Definition one_set_world : World :=
  demo_world (replicate 5 user_row) (replicate 8 gym_row) one_set_events.

(** Two data sets with every count of the first set doubled. *)
Definition doubled_events : list Row := demo_events 14 32 507602.
Definition doubled_world : World :=
  demo_world (replicate 10 user_row) (replicate 16 gym_row) doubled_events.

(** ** Facts about the effects *)

Lemma committed_count_tables env w w' table filter :
  tables w' = tables w ->
  committed_count env w' table filter = committed_count env w table filter.
Proof. unfold committed_count, committed. now intros ->. Qed.

Lemma assert_count_run env self t e f w :
  fst (assert_count env self t e f w) = check_outcome env self w (t, e, f)
  /\ tables (snd (assert_count env self t e f w)) = tables w
  /\ count_log (snd (assert_count env self t e f w))
     = count_log w ++ [(qualified self t, f)].
Proof.
  unfold assert_count, bind, print, print_end, count_where, py_assert,
    check_outcome.
  cbn [fst snd tables stdout count_log].
  set (w0 := Build_World _ _ _ _ _ _ _).
  replace (committed_count env w0 (qualified self t) f)
    with (committed_count env w (qualified self t) f)
    by (symmetry; now apply committed_count_tables).
  destruct (committed_count env w (qualified self t) f) as [a|]; cbn.
  - destruct (Z.eqb a e); cbn; auto.
  - auto.
Qed.

Lemma check_all_run env self es : forall w,
  fst (check_all env self es w) = fst (run_battery env self w es)
  /\ tables (snd (check_all env self es w)) = tables w
  /\ count_log (snd (check_all env self es w))
     = count_log w ++ map (query_of self) (snd (run_battery env self w es)).
Proof.
  induction es as [|[[t e] f] es IH]; intros w.
  - cbn. now rewrite app_nil_r.
  - cbn [check_all run_battery].
    destruct (assert_count_run env self t e f w) as (Ho & Ht & Hl).
    unfold bind.
    destruct (assert_count env self t e f w) as [o w1] eqn:E.
    cbn [fst snd] in Ho, Ht, Hl. rewrite <- Ho.
    destruct o as [[]|ex|].
    + destruct (IH w1) as (IHo & IHt & IHl).
      assert (Hrb : run_battery env self w1 es = run_battery env self w es).
      { clear -Ht. induction es as [|x es IHes]; [reflexivity|].
        cbn [run_battery].
        assert (Hc : check_outcome env self w1 x = check_outcome env self w x).
        { destruct x as [[t' e'] f']. unfold check_outcome.
          now rewrite (committed_count_tables env w w1). }
        now rewrite Hc, IHes. }
      rewrite Hrb in IHo, IHl.
      destruct (run_battery env self w es) as [o' seen].
      cbn [fst snd] in *.
      rewrite IHo, IHt, Ht, IHl, Hl, <- app_assoc. auto.
    + cbn. rewrite Ht, Hl. auto.
    + cbn. rewrite Ht, Hl. auto.
Qed.

(** Five calls in a row, grouped as one block before what follows. *)
Lemma seq5_block {A} (a1 a2 a3 a4 a5 : Py unit) (rest : Py A) w :
  (a1 ;; a2 ;; a3 ;; a4 ;; a5 ;; rest) w
  = ((a1 ;; a2 ;; a3 ;; a4 ;; a5 ;; ret tt) ;; rest) w.
Proof.
  unfold bind, ret.
  destruct (a1 w) as [[[]| |] w1]; [|reflexivity..].
  destruct (a2 w1) as [[[]| |] w2]; [|reflexivity..].
  destruct (a3 w2) as [[[]| |] w3]; [|reflexivity..].
  destruct (a4 w3) as [[[]| |] w4]; [|reflexivity..].
  destruct (a5 w4) as [[[]| |] w5]; reflexivity.
Qed.

(** [validate] is its five expectations between two clock readings. *)
Lemma validate_unfold env self sets w :
  validate env self sets w
  = (check_all env self (battery sets) ;;
     let* finish := time_int env in
     print ("Bronze layer validation completed in "
            +:+ py_str (finish - wall_clock env (clock_reads w))
            +:+ " seconds")) (validate_entry env w).
Proof.
  unfold validate, validate_entry.
  unfold bind at 1 2. cbn [time_int print print_end fst snd].
  rewrite seq5_block. reflexivity.
Qed.

Lemma validate_run env self sets w :
  fst (validate env self sets w)
  = fst (check_all env self (battery sets) (validate_entry env w))
  /\ count_log (snd (validate env self sets w))
     = count_log (snd (check_all env self (battery sets) (validate_entry env w))).
Proof.
  rewrite validate_unfold. unfold bind at 1 3.
  destruct (check_all env self (battery sets) (validate_entry env w))
    as [[[]| |] w1]; cbn; auto.
Qed.

Lemma validate_entry_tables env w : tables (validate_entry env w) = tables w.
Proof. reflexivity. Qed.

Lemma validate_entry_count_log env w :
  count_log (validate_entry env w) = count_log w.
Proof. reflexivity. Qed.

Lemma filter_all {A} (p : A -> bool) (l : list A) :
  (forall x, p x = true) -> List.filter p l = l.
Proof.
  intros Hp. induction l as [|x l IH]; cbn; [reflexivity|].
  now rewrite Hp, IH.
Qed.

Lemma committed_count_filter env w table filter rows p :
  tables w !! table = Some rows ->
  (forall r, sql_where env filter r = p r) ->
  committed_count env w table filter
  = Some (Z.of_nat (length (List.filter p rows))).
Proof.
  intros Ht Hp. unfold committed_count, committed. rewrite Ht. cbn.
  do 3 f_equal. apply List.filter_ext. exact Hp.
Qed.

Lemma committed_count_all env w table filter rows :
  tables w !! table = Some rows ->
  (forall r, sql_where env filter r = true) ->
  committed_count env w table filter = Some (Z.of_nat (length rows)).
Proof.
  intros Ht Hp.
  rewrite (committed_count_filter env w table filter rows (fun _ => true) Ht Hp).
  now rewrite filter_all.
Qed.

Lemma check_outcome_holds env self w x :
  holds env self w x -> check_outcome env self w x = Returned tt.
Proof.
  destruct x as [[t e] f]. unfold holds, check_outcome. cbn.
  intros ->. now rewrite Z.eqb_refl.
Qed.

Lemma run_battery_prefix env self w pre x post :
  Forall (holds env self w) pre ->
  run_battery env self w (pre ++ x :: post)
  = match check_outcome env self w x with
    | Returned _ =>
        let '(o, seen) := run_battery env self w post in (o, pre ++ x :: seen)
    | o => (o, pre ++ [x])
    end.
Proof.
  induction 1 as [|y pre Hy _ IH]; cbn [app run_battery].
  - destruct (check_outcome env self w x); [|reflexivity..].
    now destruct (run_battery env self w post).
  - rewrite (check_outcome_holds _ _ _ _ Hy), IH.
    destruct (check_outcome env self w x); [|reflexivity..].
    now destruct (run_battery env self w post).
Qed.

(** What [validate] returns and which counts it asked for. *)
Lemma validate_run_battery env self sets w :
  fst (validate env self sets w) = fst (run_battery env self w (battery sets))
  /\ count_log (snd (validate env self sets w))
     = count_log w
       ++ map (query_of self) (snd (run_battery env self w (battery sets))).
Proof.
  destruct (validate_run env self sets w) as [-> ->].
  destruct (check_all_run env self (battery sets) (validate_entry env w))
    as (-> & _ & ->).
  assert (H : forall es, run_battery env self (validate_entry env w) es
                         = run_battery env self w es).
  { induction es as [|[[t e] f] es IH]; [reflexivity|].
    cbn [run_battery]. unfold check_outcome.
    rewrite (committed_count_tables env w (validate_entry env w))
      by apply validate_entry_tables.
    now rewrite IH. }
  now rewrite H, validate_entry_count_log.
Qed.

(** ** The concrete data sets, counted *)

Lemma filter_replicate {A} (p : A -> bool) (n : nat) (x : A) :
  List.filter p (replicate n x) = if p x then replicate n x else [].
Proof.
  induction n as [|n IH]; cbn; [now destruct (p x)|].
  rewrite IH. now destruct (p x).
Qed.

Lemma count_replicate {A} (p : A -> bool) (n : Z) (x : A) :
  0 <= n ->
  Z.of_nat (length (List.filter p (replicate (Z.to_nat n) x)))
  = if p x then n else 0.
Proof.
  intros Hn. rewrite filter_replicate. destruct (p x).
  - rewrite length_replicate. lia.
  - reflexivity.
Qed.

Lemma demo_events_count topic users workouts bpms :
  0 <= users -> 0 <= workouts -> 0 <= bpms ->
  Z.of_nat (length (List.filter (has_topic topic)
                      (demo_events users workouts bpms)))
  = (if String.eqb "user_info" topic then users else 0)
    + (if String.eqb "workout" topic then workouts else 0)
    + (if String.eqb "bpm" topic then bpms else 0).
Proof.
  intros Hu Hw Hb. unfold demo_events.
  rewrite !List.filter_app, !length_app, !Nat2Z.inj_add.
  rewrite !count_replicate by assumption.
  unfold has_topic, event_row. cbn [get_col String.eqb Ascii.eqb Bool.eqb].
  lia.
Qed.

Lemma demo_where_true r : sql_where demo_env "true" r = true.
Proof. reflexivity. Qed.

Lemma demo_where_topic topic r :
  In topic ["user_info"; "workout"; "bpm"] ->
  sql_where demo_env ("topic='" +:+ topic +:+ "'") r = has_topic topic r.
Proof. intros [<-|[<-|[<-|[]]]]; reflexivity. Qed.

Lemma demo_world_users users gyms events :
  tables (demo_world users gyms events) !! qualified demo_self "registered_users_bz"
  = Some users.
Proof. reflexivity. Qed.

Lemma demo_world_gyms users gyms events :
  tables (demo_world users gyms events) !! qualified demo_self "gym_logins_bz"
  = Some gyms.
Proof. reflexivity. Qed.

Lemma demo_world_events users gyms events :
  tables (demo_world users gyms events) !! qualified demo_self "kafka_multiplex_bz"
  = Some events.
Proof. reflexivity. Qed.

(** The five counts [validate] asks of a concrete world. *)
Lemma demo_world_counts nu ng u wo b :
  0 <= u -> 0 <= wo -> 0 <= b ->
  let w := demo_world (replicate nu user_row) (replicate ng gym_row)
                      (demo_events u wo b) in
  committed_count demo_env w (qualified demo_self "registered_users_bz") "true"
  = Some (Z.of_nat nu)
  /\ committed_count demo_env w (qualified demo_self "gym_logins_bz") "true"
     = Some (Z.of_nat ng)
  /\ committed_count demo_env w (qualified demo_self "kafka_multiplex_bz")
       "topic='user_info'" = Some u
  /\ committed_count demo_env w (qualified demo_self "kafka_multiplex_bz")
       "topic='workout'" = Some wo
  /\ committed_count demo_env w (qualified demo_self "kafka_multiplex_bz")
       "topic='bpm'" = Some b.
Proof.
  intros Hu Hw Hb w. subst w.
  rewrite (committed_count_all demo_env _ _ "true" _
             (demo_world_users _ _ _) demo_where_true).
  rewrite (committed_count_all demo_env _ _ "true" _
             (demo_world_gyms _ _ _) demo_where_true).
  rewrite (committed_count_filter demo_env _ _ "topic='user_info'" _
             (has_topic "user_info") (demo_world_events _ _ _)
             (fun r => demo_where_topic "user_info" r ltac:(cbn; auto))).
  rewrite (committed_count_filter demo_env _ _ "topic='workout'" _
             (has_topic "workout") (demo_world_events _ _ _)
             (fun r => demo_where_topic "workout" r ltac:(cbn; auto))).
  rewrite (committed_count_filter demo_env _ _ "topic='bpm'" _
             (has_topic "bpm") (demo_world_events _ _ _)
             (fun r => demo_where_topic "bpm" r ltac:(cbn; auto))).
  rewrite !demo_events_count by assumption.
  rewrite !length_replicate. cbn [String.eqb Ascii.eqb Bool.eqb].
  repeat split; f_equal; lia.
Qed.

Lemma one_set_counts :
  committed_count demo_env one_set_world
    (qualified demo_self "registered_users_bz") "true" = Some 5
  /\ committed_count demo_env one_set_world
       (qualified demo_self "gym_logins_bz") "true" = Some 8
  /\ committed_count demo_env one_set_world
       (qualified demo_self "kafka_multiplex_bz") "topic='user_info'" = Some 7
  /\ committed_count demo_env one_set_world
       (qualified demo_self "kafka_multiplex_bz") "topic='workout'" = Some 16
  /\ committed_count demo_env one_set_world
       (qualified demo_self "kafka_multiplex_bz") "topic='bpm'" = Some 253801.
Proof. apply (demo_world_counts 5 8 7 16 253801); lia. Qed.

Lemma doubled_counts :
  committed_count demo_env doubled_world
    (qualified demo_self "registered_users_bz") "true" = Some 10
  /\ committed_count demo_env doubled_world
       (qualified demo_self "gym_logins_bz") "true" = Some 16
  /\ committed_count demo_env doubled_world
       (qualified demo_self "kafka_multiplex_bz") "topic='user_info'" = Some 14
  /\ committed_count demo_env doubled_world
       (qualified demo_self "kafka_multiplex_bz") "topic='workout'" = Some 32
  /\ committed_count demo_env doubled_world
       (qualified demo_self "kafka_multiplex_bz") "topic='bpm'" = Some 507602.
Proof. apply (demo_world_counts 10 16 14 32 507602); lia. Qed.

(** ** The validator: claims *)

Example fmt_comma_bpm : fmt_comma 253801 = "253,801".
Proof. reflexivity. Qed.

Example fmt_comma_negative : fmt_comma (-1234567) = "-1,234,567".
Proof. reflexivity. Qed.

Example assert_message_doubled :
  assert_message 10 5 "registered_users_bz" "true"
  = "Expected 10 records, found 5 in registered_users_bz where true".
Proof. reflexivity. Qed.

(** C3. For a table with [actual] committed rows under the filter,
    [assert_count] returns normally exactly when [actual] equals the
    expected count, and otherwise raises the assertion error whose message
    names the expected count, the actual count, the table and the filter;
    it raises nothing else. *)
Theorem assert_count_mismatch_iff env self table expected filter w actual :
  committed_count env w (qualified self table) filter = Some actual ->
  let r := fst (assert_count env self table expected filter w) in
  let report :=
    "Expected " +:+ fmt_comma expected +:+ " records, found "
    +:+ fmt_comma actual +:+ " in " +:+ table +:+ " where " +:+ filter in
  (r = Returned tt <-> actual = expected)
  /\ (r = Raised (AssertionError report) <-> actual <> expected)
  /\ (forall e, r = Raised e -> e = AssertionError report)
  /\ r <> Hangs.
Proof.
  intros Hc r report. subst r.
  destruct (assert_count_run env self table expected filter w) as (-> & _ & _).
  unfold check_outcome. rewrite Hc.
  subst report. fold (assert_message expected actual table filter).
  destruct (Z.eqb_spec actual expected) as [Heq|Hne].
  - repeat split; intros H; try discriminate H; congruence.
  - split; [split; [discriminate | congruence] |].
    split; [split; [auto | reflexivity] |].
    split; [intros e H; inversion H; reflexivity | discriminate].
Qed.

Lemma assert_count_mismatch_iff_witness :
  fst (assert_count demo_env demo_self "kafka_multiplex_bz" 507602
         "topic='bpm'" one_set_world)
  = Raised (AssertionError
      "Expected 507,602 records, found 253,801 in kafka_multiplex_bz where topic='bpm'")
  /\ fst (assert_count demo_env demo_self "kafka_multiplex_bz" 253801
            "topic='bpm'" one_set_world)
     = Returned tt.
Proof.
  split.
  - apply (assert_count_mismatch_iff demo_env demo_self "kafka_multiplex_bz"
             507602 "topic='bpm'" one_set_world 253801).
    + apply one_set_counts.
    + lia.
  - apply (assert_count_mismatch_iff demo_env demo_self "kafka_multiplex_bz"
             253801 "topic='bpm'" one_set_world 253801).
    + apply one_set_counts.
    + reflexivity.
Defined.

(** C1. On a bronze state with exactly 5 registered users, 8 gym logins
    and multiplexed events of which 7 are [user_info], 16 are [workout] and
    253801 are [bpm], [validate(1)] returns without raising, and
    [validate(2)] on the same state raises the count mismatch of
    [registered_users_bz], whose expected count (10) is twice the actual
    count (5). *)
Theorem validate_single_set env self w users gyms events :
  (forall r, sql_where env "true" r = true) ->
  (forall topic r, In topic ["user_info"; "workout"; "bpm"] ->
     sql_where env ("topic='" +:+ topic +:+ "'") r = has_topic topic r) ->
  tables w !! qualified self "registered_users_bz" = Some users ->
  tables w !! qualified self "gym_logins_bz" = Some gyms ->
  tables w !! qualified self "kafka_multiplex_bz" = Some events ->
  Z.of_nat (length users) = 5 ->
  Z.of_nat (length gyms) = 8 ->
  Z.of_nat (length (List.filter (has_topic "user_info") events)) = 7 ->
  Z.of_nat (length (List.filter (has_topic "workout") events)) = 16 ->
  Z.of_nat (length (List.filter (has_topic "bpm") events)) = 253801 ->
  fst (validate env self 1 w) = Returned tt
  /\ fst (validate env self 2 w)
     = Raised (AssertionError
         "Expected 10 records, found 5 in registered_users_bz where true").
Proof.
  intros Htrue Htopic Hu Hg He Lu Lg Lui Lwo Lbpm.
  pose proof (committed_count_all env w _ "true" users Hu Htrue) as Cu.
  pose proof (committed_count_all env w _ "true" gyms Hg Htrue) as Cg.
  pose proof (committed_count_filter env w _ "topic='user_info'" events
                (has_topic "user_info") He
                (fun r => Htopic "user_info" r ltac:(cbn; auto))) as Cui.
  pose proof (committed_count_filter env w _ "topic='workout'" events
                (has_topic "workout") He
                (fun r => Htopic "workout" r ltac:(cbn; auto))) as Cwo.
  pose proof (committed_count_filter env w _ "topic='bpm'" events
                (has_topic "bpm") He
                (fun r => Htopic "bpm" r ltac:(cbn; auto))) as Cbpm.
  rewrite Lu in Cu. rewrite Lg in Cg.
  rewrite Lui in Cui. rewrite Lwo in Cwo. rewrite Lbpm in Cbpm.
  split.
  - destruct (validate_run_battery env self 1 w) as [-> _].
    unfold battery, default_filter. cbn [run_battery check_outcome Z.eqb].
    rewrite Cu, Cg, Cui, Cwo, Cbpm. reflexivity.
  - destruct (validate_run_battery env self 2 w) as [-> _].
    unfold battery, default_filter. cbn [run_battery check_outcome Z.eqb].
    rewrite Cu. reflexivity.
Qed.

Lemma validate_single_set_witness :
  fst (validate demo_env demo_self 1 one_set_world) = Returned tt
  /\ fst (validate demo_env demo_self 2 one_set_world)
     = Raised (AssertionError
         "Expected 10 records, found 5 in registered_users_bz where true").
Proof.
  apply (validate_single_set demo_env demo_self one_set_world
           (replicate 5 user_row) (replicate 8 gym_row) one_set_events).
  - exact demo_where_true.
  - exact demo_where_topic.
  - apply demo_world_users.
  - apply demo_world_gyms.
  - apply demo_world_events.
  - reflexivity.
  - reflexivity.
  - unfold one_set_events. rewrite demo_events_count by lia. reflexivity.
  - unfold one_set_events. rewrite demo_events_count by lia. reflexivity.
  - unfold one_set_events. rewrite demo_events_count by lia. reflexivity.
Defined.

(** C10. For every [sets] other than 1, [validate] passes exactly when the
    committed counts are 10, 16, 13 and 32 for the first four expectations,
    whatever [sets] is, and [sets * 253801] for the [bpm] events. *)
Theorem validate_fixed_counts env self sets w a1 a2 a3 a4 a5 :
  sets <> 1 ->
  committed_count env w (qualified self "registered_users_bz") "true" = Some a1 ->
  committed_count env w (qualified self "gym_logins_bz") "true" = Some a2 ->
  committed_count env w (qualified self "kafka_multiplex_bz") "topic='user_info'"
    = Some a3 ->
  committed_count env w (qualified self "kafka_multiplex_bz") "topic='workout'"
    = Some a4 ->
  committed_count env w (qualified self "kafka_multiplex_bz") "topic='bpm'"
    = Some a5 ->
  fst (validate env self sets w) = Returned tt
  <-> a1 = 10 /\ a2 = 16 /\ a3 = 13 /\ a4 = 32 /\ a5 = sets * 253801.
Proof.
  intros Hsets C1 C2 C3 C4 C5.
  destruct (validate_run_battery env self sets w) as [-> _].
  unfold battery, default_filter.
  apply Z.eqb_neq in Hsets. rewrite Hsets.
  cbn [run_battery check_outcome]. rewrite C1, C2, C3, C4, C5.
  destruct (Z.eqb_spec a1 10) as [->|N1]; [|split; [discriminate | tauto]].
  destruct (Z.eqb_spec a2 16) as [->|N2]; [|split; [discriminate | tauto]].
  destruct (Z.eqb_spec a3 13) as [->|N3]; [|split; [discriminate | tauto]].
  destruct (Z.eqb_spec a4 32) as [->|N4]; [|split; [discriminate | tauto]].
  destruct (Z.eqb_spec a5 (sets * 253801)) as [->|N5];
    [|split; [discriminate | tauto]].
  cbn. tauto.
Qed.

Lemma validate_fixed_counts_witness :
  fst (validate demo_env demo_self 2 one_set_world) = Returned tt
  <-> 5 = 10 /\ 8 = 16 /\ 7 = 13 /\ 16 = 32 /\ 253801 = 2 * 253801.
Proof.
  apply (validate_fixed_counts demo_env demo_self 2 one_set_world).
  - lia.
  - apply one_set_counts.
  - apply one_set_counts.
  - apply one_set_counts.
  - apply one_set_counts.
  - apply one_set_counts.
Defined.

(** C4, as the code has it. The expectations of [validate] are those of
    [battery]: 5, 8, 7 and 16 when [sets] is 1 and 10, 16, 13 and 32
    otherwise, and [sets * 253801] for [bpm]. They are evaluated in that
    order: when the expectations before one all hold and that one finds
    [a] rows where it expects [e <> a], [validate] raises its mismatch and
    has asked the engine for no count after it. *)
Theorem validate_first_mismatch env self sets w pre t e f post a :
  battery sets = pre ++ (t, e, f) :: post ->
  Forall (holds env self w) pre ->
  committed_count env w (qualified self t) f = Some a ->
  a <> e ->
  fst (validate env self sets w)
  = Raised (AssertionError (assert_message e a t f))
  /\ count_log (snd (validate env self sets w))
     = count_log w ++ map (query_of self) (pre ++ [(t, e, f)]).
Proof.
  intros Hb Hpre Hc Hne.
  destruct (validate_run_battery env self sets w) as [-> ->].
  rewrite Hb, (run_battery_prefix env self w pre (t, e, f) post Hpre).
  unfold check_outcome. rewrite Hc.
  apply Z.eqb_neq in Hne. rewrite Hne. cbn. auto.
Qed.

Lemma validate_first_mismatch_witness :
  fst (validate demo_env demo_self 2 doubled_world)
  = Raised (AssertionError
              (assert_message 13 14 "kafka_multiplex_bz" "topic='user_info'"))
  /\ count_log (snd (validate demo_env demo_self 2 doubled_world))
     = count_log doubled_world
       ++ map (query_of demo_self)
              ([ ("registered_users_bz", 10, "true");
                 ("gym_logins_bz", 16, "true") ]
               ++ [ ("kafka_multiplex_bz", 13, "topic='user_info'") ]).
Proof.
  apply (validate_first_mismatch demo_env demo_self 2 doubled_world
           [ ("registered_users_bz", 10, "true"); ("gym_logins_bz", 16, "true") ]
           "kafka_multiplex_bz" 13 "topic='user_info'"
           [ ("kafka_multiplex_bz", 32, "topic='workout'");
             ("kafka_multiplex_bz", 2 * 253801, "topic='bpm'") ]
           14).
  - reflexivity.
  - constructor; [apply doubled_counts|].
    constructor; [apply doubled_counts|].
    constructor.
  - apply doubled_counts.
  - lia.
Defined.

(** C4 as stated fails: with two data sets loaded and every count exactly
    twice that of one set, each expectation scaled by the multiplier holds,
    yet [validate(2)] raises: it expects 13 [user_info] events, not 14. *)
Lemma validate_not_scaled :
  Forall (holds demo_env demo_self doubled_world) (scaled_battery 2)
  /\ fst (validate demo_env demo_self 2 doubled_world)
     = Raised (AssertionError
         "Expected 13 records, found 14 in kafka_multiplex_bz where topic='user_info'").
Proof.
  destruct doubled_counts as (Cu & Cg & Cui & Cwo & Cbpm).
  split.
  - unfold scaled_battery, battery, default_filter. cbn [map Z.eqb fst snd].
    do 5 (constructor; [assumption|]). constructor.
  - destruct (validate_run_battery demo_env demo_self 2 doubled_world) as [-> _].
    unfold battery, default_filter. cbn [run_battery check_outcome Z.eqb].
    rewrite Cu, Cg, Cui. reflexivity.
Qed.

(** ** The orchestrator *)

Lemma consume_user_registration_unknown :
  ~ In "consume_user_registration" Bronze_attributes.
Proof. cbn. intuition discriminate. Qed.

(** C2, as the code has it. Whatever the mode, [consume] raises
    [AttributeError] at its first call, [self.consume_user_registration]:
    the class names the method [consume_user_registrations]. No pipeline is
    started, no table is written, and nothing is awaited. *)
Theorem consume_raises_attribute_error env self once processing_time w :
  fst (consume env self once processing_time w)
  = Raised (AttributeError
              "'Bronze' object has no attribute 'consume_user_registration'")
  /\ active (snd (consume env self once processing_time w)) = active w
  /\ tables (snd (consume env self once processing_time w)) = tables w.
Proof. repeat split. Qed.

(** The third call of [consume] passes two arguments, [once] and
    [processing_time], to a method whose parameters are [topic], [once] and
    [processing_time]: [once] lands on [topic], the interval on the method's
    own [once], and [processing_time] takes its default. *)
Lemma kafka_call_shifts_arguments env once processing_time :
  fst <$> assoc "consume_kafka_multiplex" (pipeline_methods env)
  = Some [None; Some (PyBool true); Some default_processing_time]
  /\ bind_args [None; Some (PyBool true); Some default_processing_time]
               [once; processing_time]
     = Some [once; processing_time; default_processing_time].
Proof. split; reflexivity. Qed.


(** ** The source pipelines *)

(** Each pipeline method stops at its first statement, the import of [F],
    and leaves the session as it found it. *)
Lemma consume_source_raises env self src topic once processing_time w :
  consume_source env self src topic once processing_time w
  = (Raised (ImportError "F" "pyspark.sql.functions"), w).
Proof. destruct src; reflexivity. Qed.


(** C6, as the code has it. [consume_kafka_multiplex] raises [ImportError]
    before it reads [date_lookup] and before it builds the join: the outcome
    is the same whether the reference table exists or not, and the session
    is left untouched. *)
Theorem multiplex_raises_before_join env self topic once processing_time w :
  consume_kafka_multiplex env self topic once processing_time w
  = (Raised (ImportError "F" "pyspark.sql.functions"), w).
Proof. reflexivity. Qed.


(** C8, as the code has it. Neither mode configures a trigger: with
    [once=True] and with [once=False] alike, every pipeline method raises
    [ImportError] before it reaches the choice of the trigger, and the
    scheduler pool is not set either. *)
Theorem pipelines_set_no_trigger env self src topic processing_time w :
  consume_source env self src topic (PyBool true) processing_time w
  = (Raised (ImportError "F" "pyspark.sql.functions"), w)
  /\ consume_source env self src topic (PyBool false) processing_time w
     = (Raised (ImportError "F" "pyspark.sql.functions"), w)
  /\ scheduler_pool
       (snd (consume_source env self src topic (PyBool true) processing_time w))
     = scheduler_pool w.
Proof.
  rewrite !consume_source_raises. repeat split.
Qed.

(** ** Further properties of the orchestrator *)

(** X12. All a caller sees of [consume] is its first line: it prints the
    start banner, reads the clock once, and then raises; it never prints
    the completion line, never changes the scheduler pool and asks the
    engine for no count. *)
Theorem consume_prints_only_banner env self once processing_time w :
  let w' := snd (consume env self once processing_time w) in
  stdout w' = stdout w ++ [nl +:+ "Starting bronze layer consumption ..." +:+ nl]
  /\ clock_reads w' = S (clock_reads w)
  /\ scheduler_pool w' = scheduler_pool w
  /\ count_log w' = count_log w.
Proof. repeat split. Qed.

(** ** Further properties of the validator *)

(** What a count and its assertion leave alone. *)
Lemma assert_count_frame env self t e f w :
  let w' := snd (assert_count env self t e f w) in
  tables w' = tables w /\ active w' = active w
  /\ scheduler_pool w' = scheduler_pool w
  /\ current_namespace w' = current_namespace w
  /\ clock_reads w' = clock_reads w.
Proof.
  unfold assert_count, bind, print, print_end, count_where, py_assert.
  cbn [fst snd].
  destruct (committed_count env _ (qualified self t) f) as [a|]; cbn.
  - destruct (Z.eqb a e); cbn; auto.
  - auto.
Qed.

Lemma check_all_frame env self es : forall w,
  let w' := snd (check_all env self es w) in
  tables w' = tables w /\ active w' = active w
  /\ scheduler_pool w' = scheduler_pool w
  /\ current_namespace w' = current_namespace w
  /\ clock_reads w' = clock_reads w.
Proof.
  induction es as [|[[t e] f] es IH]; intros w; cbn [check_all].
  - cbn. auto.
  - pose proof (assert_count_frame env self t e f w) as Hf.
    unfold bind. destruct (assert_count env self t e f w) as [[[]| |] w1];
      cbn [snd] in Hf |- *; [|exact Hf..].
    pose proof (IH w1) as Hi. cbn zeta in Hi, Hf.
    destruct Hi as (I1 & I2 & I3 & I4 & I5).
    destruct Hf as (F1 & F2 & F3 & F4 & F5).
    repeat split; congruence.
Qed.

(** X13. The validator only reads: whether [validate] passes or raises,
    the tables, the active queries, the scheduler pool and the current
    namespace are what they were before the call. *)
Theorem validate_only_reads env self sets w :
  let w' := snd (validate env self sets w) in
  tables w' = tables w /\ active w' = active w
  /\ scheduler_pool w' = scheduler_pool w
  /\ current_namespace w' = current_namespace w.
Proof.
  rewrite validate_unfold. unfold bind at 1.
  pose proof (check_all_frame env self (battery sets) (validate_entry env w))
    as Hf.
  destruct (check_all env self (battery sets) (validate_entry env w))
    as [[[]| |] w1]; cbn [snd] in Hf |- *; cbn zeta in Hf;
    destruct Hf as (Ht & Ha & Hp & Hn & _); cbn; rewrite ?Ht, ?Ha, ?Hp, ?Hn;
    repeat split.
Qed.

Lemma run_battery_returned env self w es :
  fst (run_battery env self w es) = Returned tt <-> Forall (holds env self w) es.
Proof.
  induction es as [|[[t e] f] es IH]; cbn [run_battery].
  - split; [constructor | reflexivity].
  - rewrite Forall_cons. unfold check_outcome, holds at 1. cbn [fst snd].
    destruct (committed_count env w (qualified self t) f) as [a|] eqn:Hc.
    + destruct (Z.eqb_spec a e) as [->|Hne].
      * destruct (run_battery env self w es) as [o seen]. cbn [fst] in *.
        rewrite IH. split; [intros H; split; [reflexivity | exact H]
                           | intros [_ H]; exact H].
      * cbn. split; [discriminate | intros [H _]; congruence].
    + cbn. split; [discriminate | intros [H _]; discriminate H].
Qed.

Lemma run_battery_seen_all env self w es :
  fst (run_battery env self w es) = Returned tt ->
  snd (run_battery env self w es) = es.
Proof.
  induction es as [|x es IH]; cbn [run_battery]; [reflexivity|].
  destruct (check_outcome env self w x) as [[]| |]; cbn; try discriminate.
  destruct (run_battery env self w es) as [o seen]. cbn in *.
  intros H. now rewrite IH.
Qed.

Lemma validate_returned_iff env self sets w :
  fst (validate env self sets w) = Returned tt
  <-> Forall (holds env self w) (battery sets).
Proof.
  destruct (validate_run_battery env self sets w) as [-> _].
  apply run_battery_returned.
Qed.

(** X14. [validate(1)] passes exactly when the state holds one data set:
    5 registered users, 8 gym logins and 7, 16 and 253801 multiplexed
    events of the three topics. *)
Theorem validate_one_set_iff env self w a1 a2 a3 a4 a5 :
  committed_count env w (qualified self "registered_users_bz") "true" = Some a1 ->
  committed_count env w (qualified self "gym_logins_bz") "true" = Some a2 ->
  committed_count env w (qualified self "kafka_multiplex_bz") "topic='user_info'"
    = Some a3 ->
  committed_count env w (qualified self "kafka_multiplex_bz") "topic='workout'"
    = Some a4 ->
  committed_count env w (qualified self "kafka_multiplex_bz") "topic='bpm'"
    = Some a5 ->
  fst (validate env self 1 w) = Returned tt
  <-> a1 = 5 /\ a2 = 8 /\ a3 = 7 /\ a4 = 16 /\ a5 = 253801.
Proof.
  intros C1 C2 C3 C4 C5. rewrite validate_returned_iff.
  unfold battery, default_filter. cbn [Z.eqb Pos.eqb].
  split.
  - intros H.
    inversion H as [|x1 l1 H1 T1]; subst; clear H.
    inversion T1 as [|x2 l2 H2 T2]; subst; clear T1.
    inversion T2 as [|x3 l3 H3 T3]; subst; clear T2.
    inversion T3 as [|x4 l4 H4 T4]; subst; clear T3.
    inversion T4 as [|x5 l5 H5 T5]; subst; clear T4.
    unfold holds in *. cbn [fst snd] in *.
    rewrite C1 in H1. rewrite C2 in H2. rewrite C3 in H3.
    rewrite C4 in H4. rewrite C5 in H5.
    injection H1 as ->. injection H2 as ->. injection H3 as ->.
    injection H4 as ->. injection H5 as ->. repeat split.
  - intros (-> & -> & -> & -> & ->).
    repeat (constructor; [assumption|]). constructor.
Qed.

Lemma validate_one_set_iff_witness :
  fst (validate demo_env demo_self 1 doubled_world) = Returned tt
  <-> 10 = 5 /\ 16 = 8 /\ 14 = 7 /\ 32 = 16 /\ 507602 = 253801.
Proof.
  apply (validate_one_set_iff demo_env demo_self doubled_world).
  - apply doubled_counts.
  - apply doubled_counts.
  - apply doubled_counts.
  - apply doubled_counts.
  - apply doubled_counts.
Defined.

(** X15. A [validate] that passes has asked the engine for exactly its
    five counts, in the order written, and its last line reports the
    seconds between its two readings of the clock. *)
Theorem validate_pass_trace env self sets w :
  fst (validate env self sets w) = Returned tt ->
  let w' := snd (validate env self sets w) in
  count_log w'
  = count_log w
    ++ [ (qualified self "registered_users_bz", "true");
         (qualified self "gym_logins_bz", "true");
         (qualified self "kafka_multiplex_bz", "topic='user_info'");
         (qualified self "kafka_multiplex_bz", "topic='workout'");
         (qualified self "kafka_multiplex_bz", "topic='bpm'") ]
  /\ last (stdout w')
     = Some (("Bronze layer validation completed in "
              +:+ py_str (wall_clock env (S (clock_reads w))
                          - wall_clock env (clock_reads w))
              +:+ " seconds") +:+ nl)
  /\ clock_reads w' = S (S (clock_reads w)).
Proof.
  intros Hret w'. subst w'. split.
  - destruct (validate_run_battery env self sets w) as [Ho ->].
    rewrite Ho in Hret. rewrite (run_battery_seen_all _ _ _ _ Hret).
    reflexivity.
  - rewrite validate_unfold in Hret |- *. unfold bind at 1 in Hret.
    unfold bind at 1 3.
    pose proof (check_all_frame env self (battery sets) (validate_entry env w))
      as Hf.
    destruct (check_all env self (battery sets) (validate_entry env w))
      as [[[]| |] w1]; cbn [fst snd] in Hret, Hf |- *; try discriminate Hret.
    cbn zeta in Hf. destruct Hf as (_ & _ & _ & _ & Hc).
    cbn. rewrite Hc. cbn. split; [|reflexivity].
    rewrite last_snoc. reflexivity.
Qed.

Lemma validate_pass_trace_witness :
  let w' := snd (validate demo_env demo_self 1 one_set_world) in
  count_log w'
  = count_log one_set_world
    ++ [ (qualified demo_self "registered_users_bz", "true");
         (qualified demo_self "gym_logins_bz", "true");
         (qualified demo_self "kafka_multiplex_bz", "topic='user_info'");
         (qualified demo_self "kafka_multiplex_bz", "topic='workout'");
         (qualified demo_self "kafka_multiplex_bz", "topic='bpm'") ]
  /\ last (stdout w')
     = Some (("Bronze layer validation completed in "
              +:+ py_str (wall_clock demo_env (S (clock_reads one_set_world))
                          - wall_clock demo_env (clock_reads one_set_world))
              +:+ " seconds") +:+ nl)
  /\ clock_reads w' = S (S (clock_reads one_set_world)).
Proof.
  apply (validate_pass_trace demo_env demo_self 1 one_set_world).
  apply validate_returned_iff.
  destruct one_set_counts as (Cu & Cg & Cui & Cwo & Cbpm).
  unfold battery, default_filter. cbn [Z.eqb Pos.eqb].
  repeat (constructor; [assumption|]). constructor.
Defined.

Lemma validate_pass_bpm env self sets w :
  fst (validate env self sets w) = Returned tt ->
  committed_count env w (qualified self "kafka_multiplex_bz") "topic='bpm'"
  = Some (sets * 253801).
Proof.
  rewrite validate_returned_iff. unfold battery. intros H.
  do 4 (inversion H as [|? ? _ H']; subst; clear H; rename H' into H).
  inversion H as [|? ? Hbpm _]; subst. exact Hbpm.
Qed.

Lemma one_set_passes :
  fst (validate demo_env demo_self 1 one_set_world) = Returned tt.
Proof.
  apply validate_returned_iff.
  destruct one_set_counts as (Cu & Cg & Cui & Cwo & Cbpm).
  unfold battery, default_filter. cbn [Z.eqb Pos.eqb].
  repeat (constructor; [assumption|]). constructor.
Qed.

(** X16. One state validates for at most one multiplier: if [validate]
    passes for [sets] and for [sets'] on the same state, the two are equal. *)
Theorem validate_multiplier_unique env self sets sets' w :
  fst (validate env self sets w) = Returned tt ->
  fst (validate env self sets' w) = Returned tt ->
  sets = sets'.
Proof.
  intros H1 H2.
  apply validate_pass_bpm in H1. apply validate_pass_bpm in H2.
  rewrite H1 in H2. injection H2 as H. lia.
Qed.

Lemma validate_multiplier_unique_witness : 1 = 1.
Proof.
  apply (validate_multiplier_unique demo_env demo_self 1 1 one_set_world).
  - exact one_set_passes.
  - exact one_set_passes.
Defined.

(** X17. [validate] cannot pass for a negative multiplier: the [bpm]
    expectation [sets * 253801] is then below every possible count. A
    multiplier of 0 passes only on a state without [bpm] events. *)
Theorem validate_pass_nonnegative env self sets w :
  fst (validate env self sets w) = Returned tt ->
  0 <= sets
  /\ (sets = 0 ->
      committed_count env w (qualified self "kafka_multiplex_bz") "topic='bpm'"
      = Some 0).
Proof.
  intros H. apply validate_pass_bpm in H. split.
  - unfold committed_count in H.
    destruct (committed env w _ _) as [rows|]; [|discriminate H].
    cbn in H. injection H as H. lia.
  - intros ->. exact H.
Qed.

Lemma validate_pass_nonnegative_witness :
  0 <= 1
  /\ (1 = 0 ->
      committed_count demo_env one_set_world
        (qualified demo_self "kafka_multiplex_bz") "topic='bpm'" = Some 0).
Proof.
  apply (validate_pass_nonnegative demo_env demo_self 1 one_set_world).
  exact one_set_passes.
Defined.

Lemma append_empty_r (s : string) : s +:+ "" = s.
Proof.
  induction s as [|c s IH]; [reflexivity|].
  change (String c (s +:+ "") = String c s). now rewrite IH.
Qed.

(** X18. What [assert_count] prints: always the line announcing the
    table, without a line break; then, only when the counts agree, the
    found and expected counts with the filter and the word Success. On a
    mismatch nothing follows the announcement. *)
Theorem assert_count_prints env self table expected filter w actual :
  committed_count env w (qualified self table) filter = Some actual ->
  stdout (snd (assert_count env self table expected filter w))
  = stdout w
    ++ [ "Validating record counts in " +:+ table +:+ "..." ]
    ++ (if Z.eqb actual expected
        then [ ("Found " +:+ fmt_comma actual +:+ " / Expected "
                +:+ fmt_comma expected +:+ " records where " +:+ filter
                +:+ ": Success") +:+ nl ]
        else []).
Proof.
  intros Hc.
  unfold assert_count, bind, print, print_end, count_where, py_assert.
  cbn [fst snd].
  set (w0 := Build_World _ _ _ _ _ _ _).
  replace (committed_count env w0 (qualified self table) filter)
    with (Some actual)
    by (symmetry; rewrite <- Hc; now apply committed_count_tables).
  destruct (Z.eqb actual expected); cbn.
  - rewrite <- app_assoc. cbn. now rewrite append_empty_r.
  - now rewrite append_empty_r.
Qed.

Lemma assert_count_prints_witness :
  stdout (snd (assert_count demo_env demo_self "kafka_multiplex_bz" 253801
                 "topic='bpm'" one_set_world))
  = [ "Validating record counts in kafka_multiplex_bz...";
      "Found 253,801 / Expected 253,801 records where topic='bpm': Success"
      +:+ nl ]
  /\ stdout (snd (assert_count demo_env demo_self "kafka_multiplex_bz" 507602
                    "topic='bpm'" one_set_world))
     = [ "Validating record counts in kafka_multiplex_bz..." ].
Proof.
  split.
  - rewrite (assert_count_prints demo_env demo_self "kafka_multiplex_bz" 253801
               "topic='bpm'" one_set_world 253801) by apply one_set_counts.
    reflexivity.
  - rewrite (assert_count_prints demo_env demo_self "kafka_multiplex_bz" 507602
               "topic='bpm'" one_set_world 253801) by apply one_set_counts.
    reflexivity.
Defined.
